(** * basecrm.http_client: the Base CRM request gateway

    A shallow embedding of [basecrm/http_client.py] (class [HttpClient]):
    URL and header construction, the [{"data": ...}] envelope, the single
    outbound call, and the mapping of HTTP status codes to typed errors.

    Python values are embedded as the inductive [value]; an exception is
    the [Raise] result of an [outcome]; the one side effect, the network
    call, appends the request to a log threaded through the [IO] monad.
    What the gateway imports is given from outside: the JSON encoder, the
    transport, and the constructors of the classes of [basecrm.errors].
    The constructor's optional [enable_logging] only configures logging
    and is left out. *)

From Stdlib Require Import ZArith List String Ascii Bool Lia QArith DecimalString.
From Stdlib Require Import SpecFloat.
Import ListNotations.
Open Scope string_scope.
Open Scope Z_scope.

(** ** Python values *)

(** The values that travel through the gateway: what [json.loads] yields
    and what [json.dumps] accepts.  A [dict] keeps its insertion order, so
    it is an association list; [bunch] records whether the mapping is a
    plain [dict] or a [bunch.Bunch] (a [dict] subclass with attribute-style
    access).  A [float] is an IEEE 754 number, [spec_float], of which
    [S754_nan] is [float('nan')]. *)
#[local] Unset Elimination Schemes.
Inductive value : Type :=
| VNone
| VBool (b : bool)
| VInt (n : Z)
| VFloat (f : spec_float)
| VStr (s : string)
| VList (xs : list value)
| VDict (bunch : bool) (kvs : list (string * value)).
#[local] Set Elimination Schemes.

(** Induction on values, through the lists and dicts they hold. *)

Section ValueInduction.

Variable P : value -> Prop.
Hypothesis P_None : P VNone.
Hypothesis P_Bool : forall b, P (VBool b).
Hypothesis P_Int : forall n, P (VInt n).
Hypothesis P_Float : forall f, P (VFloat f).
Hypothesis P_Str : forall s, P (VStr s).
Hypothesis P_List : forall xs, Forall P xs -> P (VList xs).
Hypothesis P_Dict : forall bunch kvs, Forall (fun kv => P (snd kv)) kvs -> P (VDict bunch kvs).

Fixpoint value_ind (x : value) : P x :=
  match x with
  | VNone => P_None
  | VBool b => P_Bool b
  | VInt n => P_Int n
  | VFloat f => P_Float f
  | VStr s => P_Str s
  | VList xs =>
      P_List xs
        ((fix all (l : list value) : Forall P l :=
            match l with
            | [] => Forall_nil P
            | y :: rest => Forall_cons y (value_ind y) (all rest)
            end) xs)
  | VDict bunch kvs =>
      P_Dict bunch kvs
        ((fix all (l : list (string * value)) : Forall (fun kv => P (snd kv)) l :=
            match l with
            | [] => Forall_nil _
            | kv :: rest => Forall_cons kv (value_ind (snd kv)) (all rest)
            end) kvs)
  end.

End ValueInduction.

(** The exceptions the gateway can end with.  The first four are
    instances of the classes of [basecrm.errors], with the attributes an
    instance holds; [Exception] is the builtin raised with a message;
    [KeyError] and [TypeError] come from subscripting, iteration and
    argument binding; [ValueError] is a failed JSON decode and
    [ConnectionError] a failure of the transport. *)
Inductive exn : Type :=
| ResourceError (http_status : Z) (errors logref : value)
| RateLimitError
| RequestError (http_status : Z) (errors logref : value)
| ServerError (http_status : Z) (errors logref : value)
| Exception (message : string)
| KeyError (key : string)
| TypeError
| ValueError
| ConnectionError.

(** The classes of [basecrm.errors] that the gateway constructs from a
    status code and a payload. *)
Inductive error_class : Type :=
| class_ResourceError
| class_RequestError
| class_ServerError.

(** An instance of a class, with its attributes. *)
Definition instance (cls : error_class) (http_status : Z) (errors logref : value)
  : exn :=
  match cls with
  | class_ResourceError => ResourceError http_status errors logref
  | class_RequestError => RequestError http_status errors logref
  | class_ServerError => ServerError http_status errors logref
  end.

(** A Python call either returns or raises. *)
Inductive outcome (A : Type) : Type :=
| Return (a : A)
| Raise (e : exn).
Arguments Return {A} a.
Arguments Raise {A} e.

Definition bind {A B : Type} (c : outcome A) (k : A -> outcome B) : outcome B :=
  match c with
  | Return a => k a
  | Raise e => Raise e
  end.

Declare Scope py_scope.
Delimit Scope py_scope with py.
Notation "x <- c ;; k" := (bind c (fun x => k))
  (at level 61, c at next level, right associativity) : py_scope.

(** A list comprehension whose element expression may raise: elements are
    computed left to right and the first exception ends the comprehension. *)
Fixpoint comprehension {A B : Type} (f : A -> outcome B) (xs : list A)
  : outcome (list B) :=
  match xs with
  | [] => Return []
  | x :: rest =>
      (y <- f x ;; ys <- comprehension f rest ;; Return (y :: ys))%py
  end.

(** ** Builtin operations on values *)

(** [d[key]] on the association list of a dict. *)
Fixpoint dict_get {V : Type} (kvs : list (string * V)) (key : string) : option V :=
  match kvs with
  | [] => None
  | (k, v) :: rest => if String.eqb k key then Some v else dict_get rest key
  end.

(** [key in d]. *)
Definition dict_has {V : Type} (kvs : list (string * V)) (key : string) : bool :=
  match dict_get kvs key with
  | Some _ => true
  | None => false
  end.

(** [d[key] = v]: an existing key keeps its position, a new one goes last. *)
Fixpoint dict_set {V : Type} (kvs : list (string * V)) (key : string) (v : V)
  : list (string * V) :=
  match kvs with
  | [] => [(key, v)]
  | (k, w) :: rest =>
      if String.eqb k key then (k, v) :: rest else (k, w) :: dict_set rest key v
  end.

(** [needle in hay] on two strings: [needle] occurs as a substring. *)
Fixpoint str_contains (needle hay : string) : bool :=
  String.prefix needle hay
  || match hay with
     | EmptyString => false
     | String _ rest => str_contains needle rest
     end.

(** [key in x] for a string [key]: key membership on a dict, element
    membership on a list, substring on a string, [TypeError] on a value
    that is not a container. *)
Definition py_in (key : string) (x : value) : outcome bool :=
  match x with
  | VDict _ kvs => Return (dict_has kvs key)
  | VList xs =>
      Return (existsb (fun v => match v with
                                | VStr s => String.eqb key s
                                | _ => false
                                end) xs)
  | VStr s => Return (str_contains key s)
  | VNone | VBool _ | VInt _ | VFloat _ => Raise TypeError
  end.

(** [x[key]] for a string [key]: the value under the key or [KeyError] on
    a dict; [TypeError] on every other value (a list or a string takes
    integer indices only, the rest are not subscriptable). *)
Definition getitem (x : value) (key : string) : outcome value :=
  match x with
  | VDict _ kvs =>
      match dict_get kvs key with
      | Some v => Return v
      | None => Raise (KeyError key)
      end
  | _ => Raise TypeError
  end.

(** The characters of a string, each as a one-character string. *)
Fixpoint chars (s : string) : list value :=
  match s with
  | EmptyString => []
  | String c rest => VStr (String c EmptyString) :: chars rest
  end.

(** [for item in x]: the elements of a list, the keys of a dict, the
    characters of a string; [TypeError] on anything else. *)
Definition py_iter (x : value) : outcome (list value) :=
  match x with
  | VList xs => Return xs
  | VDict _ kvs => Return (map (fun kv => VStr (fst kv)) kvs)
  | VStr s => Return (chars s)
  | VNone | VBool _ | VInt _ | VFloat _ => Raise TypeError
  end.

(** [x] is a dict (a JSON object). *)
Definition is_dict (x : value) : bool :=
  match x with
  | VDict _ _ => true
  | _ => false
  end.


(** [x is not None]. *)
Definition is_not_None (x : value) : bool :=
  match x with
  | VNone => false
  | _ => true
  end.

(** [bunch.bunchify]: every dict becomes a [Bunch], recursively through
    dicts and lists; any other value is returned as it is. *)
Fixpoint bunchify (x : value) : value :=
  match x with
  | VDict _ kvs => VDict true (map (fun '(k, v) => (k, bunchify v)) kvs)
  | VList xs => VList (map bunchify xs)
  | _ => x
  end.

(** [f == n] for a float and an integer: Python compares the two numbers
    exactly, so only a float whose value is the integer is equal to it. *)
Definition float_eq_int (f : spec_float) (n : Z) : bool :=
  match f with
  | S754_zero _ => Z.eqb n 0
  | S754_finite s m e =>
      let v := if s then Z.neg m else Z.pos m in
      if 0 <=? e then Z.eqb n (v * 2 ^ e) else Z.eqb (n * 2 ^ (- e)) v
  | S754_infinity _ | S754_nan => false
  end.

(** Python's [==].  A [Bunch] compares as the dict it is; two dicts are
    equal when they have the same number of keys and every key of the
    left one is bound to an equal value in the right one; [True == 1];
    floats compare as IEEE 754 has it, so a NaN is equal to nothing, not
    even to itself.  Inside a list or a dict CPython takes two elements
    that are one object for equal before it compares them; the values
    here have no identity, so on values that hold a NaN [py_eq] is [==]
    between values built apart. *)
Fixpoint py_eq (a b : value) {struct a} : bool :=
  match a, b with
  | VNone, VNone => true
  | VBool x, VBool y => Bool.eqb x y
  | VBool x, VInt n => Z.eqb (if x then 1 else 0) n
  | VInt n, VBool y => Z.eqb n (if y then 1 else 0)
  | VInt m, VInt n => Z.eqb m n
  | VFloat f, VFloat g => SFeqb f g
  | VFloat f, VInt n => float_eq_int f n
  | VInt n, VFloat f => float_eq_int f n
  | VFloat f, VBool y => float_eq_int f (if y then 1 else 0)
  | VBool x, VFloat f => float_eq_int f (if x then 1 else 0)
  | VStr s, VStr t => String.eqb s t
  | VList xs, VList ys =>
      (fix elements (l r : list value) {struct l} : bool :=
         match l, r with
         | [], [] => true
         | x :: l', y :: r' => py_eq x y && elements l' r'
         | _, _ => false
         end) xs ys
  | VDict _ kvs, VDict _ kvs' =>
      Nat.eqb (List.length kvs) (List.length kvs')
      && (fix entries (l : list (string * value)) {struct l} : bool :=
            match l with
            | [] => true
            | (k, v) :: l' =>
                match dict_get kvs' k with
                | Some w => py_eq v w
                | None => false
                end && entries l'
            end) kvs
  | _, _ => false
  end.

(** No key occurs twice in a list of keys. *)
Fixpoint distinct (ks : list string) : bool :=
  match ks with
  | [] => true
  | k :: rest => negb (existsb (String.eqb k) rest) && distinct rest
  end.

(** The representation invariant of a Python value: the keys of every
    dict, at every depth, are pairwise distinct. *)
Fixpoint well_formed (x : value) : bool :=
  match x with
  | VList xs => forallb well_formed xs
  | VDict _ kvs =>
      distinct (map fst kvs)
      && forallb (fun '(_, v) => well_formed v) kvs
  | _ => true
  end.

(** [x] holds no NaN, at any depth. *)
Fixpoint nan_free (x : value) : bool :=
  match x with
  | VFloat S754_nan => false
  | VList xs => forallb nan_free xs
  | VDict _ kvs => forallb (fun '(_, v) => nan_free v) kvs
  | _ => true
  end.

(** ** The collaborators: configuration, request, response *)

(** [basecrm.Configuration], read-only after construction; [timeout] is
    the number of seconds that [request] passes on as [float(timeout)]. *)
Record Configuration : Type := {
  base_url : string;
  access_token : string;
  user_agent : string;
  timeout : Q;
  verify_ssl : bool;
  verbose : bool
}.

(** The arguments of the one call to [requests.request]. *)
Module Request.
Record t : Type := {
  method : string;
  url : string;
  params : value;
  data : value;
  headers : list (string * string);
  timeout : Q;
  verify : bool
}.
End Request.

(** What the gateway reads of a [requests.Response]: [json] is the result
    of calling [resp.json()], which raises when the body is not JSON. *)
Module Response.
Record t : Type := {
  status_code : Z;
  headers : list (string * string);
  content : string;
  text : string;
  json : outcome value
}.
End Response.

(** [resp.headers] is case-insensitive in its keys. *)
Definition lower_char (c : ascii) : ascii :=
  let n := nat_of_ascii c in
  if (Nat.leb 65 n && Nat.leb n 90)%bool then ascii_of_nat (n + 32) else c.

Fixpoint lower (s : string) : string :=
  match s with
  | EmptyString => EmptyString
  | String c rest => String (lower_char c) (lower rest)
  end.

(** [resp.headers[name]] with the name matched without regard to case. *)
Fixpoint header_get (hs : list (string * string)) (name : string) : option string :=
  match hs with
  | [] => None
  | (k, v) :: rest =>
      if String.eqb (lower k) (lower name) then Some v else header_get rest name
  end.

(** The third component of the tuple [request] returns: the decoded and
    unwrapped JSON value, or [resp.content] as it came. *)
Inductive resp_body : Type :=
| Decoded (v : value)
| Content (raw : string).

(** [str(n)] for an integer, as [str.format] renders it. *)
Definition str_of_int (n : Z) : string := NilZero.string_of_int (Z.to_int n).

(** ** Effects: the log of outbound requests *)

(** A computation that may send requests: it extends the log of the
    requests sent so far and returns or raises. *)
Definition IO (A : Type) : Type := list Request.t -> outcome A * list Request.t.

Definition io_ret {A : Type} (a : A) : IO A := fun log => (Return a, log).

Definition io_bind {A B : Type} (c : IO A) (k : A -> IO B) : IO B :=
  fun log =>
    match c log with
    | (Return a, log') => k a log'
    | (Raise e, log') => (Raise e, log')
    end.

(** A call that touches no network. *)
Definition lift {A : Type} (c : outcome A) : IO A := fun log => (c, log).

Declare Scope io_scope.
Delimit Scope io_scope with io.
Notation "x <- c ;; k" := (io_bind c (fun x => k))
  (at level 61, c at next level, right associativity) : io_scope.

(** The result of a computation started with nothing sent, and what it sent. *)
Definition result {A : Type} (c : IO A) : outcome A := fst (c []).
Definition sent {A : Type} (c : IO A) : list Request.t := snd (c []).

(** ** class HttpClient *)

(** An instance holds the configuration it was constructed with. *)
Record HttpClient : Type := { config : Configuration }.

(** Supported REST API version prefix. *)
Definition API_VERSION : string := "/v2".

(** [wrap_envelope(body)]: the dict literal [{'data': body}]. *)
Definition wrap_envelope (body : value) : value := VDict false [("data", body)].

(** [unwrap_envelope(body)]: the conditional expression tests
    ['items' in body] first, then evaluates the comprehension over
    [body['items']] or the single [body['data']]. *)
Definition unwrap_envelope (body : value) : outcome value :=
  (has_items <- py_in "items" body ;;
   if has_items : bool then
     items <- getitem body "items" ;;
     elements <- py_iter items ;;
     unwrapped <- comprehension
                    (fun item => d <- getitem item "data" ;; Return (bunchify d))
                    elements ;;
     Return (VList unwrapped)
   else
     d <- getitem body "data" ;;
     Return (bunchify d))%py.

Section Gateway.

(** [json.dumps], the JSON encoder. *)
Variable json_dumps : value -> string.

(** [cls(http_status, errors_payload)] for a class of [basecrm.errors].
    The module is imported by the gateway and is no part of it, so what
    its constructors do is given from outside: a call returns the
    exception object or raises itself. *)
Variable new_error : error_class -> Z -> value -> outcome exn.

(** [raise cls(http_status, errors_payload)]: the object is constructed
    first, and raised when its construction returns. *)
Definition raise_new {A : Type} (cls : error_class) (http_status : Z)
    (errors_payload : value) : outcome A :=
  (e <- new_error cls http_status errors_payload ;; Raise e)%py.

(** [handle_error_response(resp)]: never returns.  The bare [except]
    around [resp.json()] turns any decode failure into the builtin
    [Exception] whose message holds the status code and [resp.text]. *)
Definition handle_error_response (resp : Response.t) : outcome unit :=
  match Response.json resp with
  | Raise _ =>
      Raise (Exception ("Unknown HTTP error response. Json expected. "
                        ++ "HTTP response code="
                        ++ str_of_int (Response.status_code resp)
                        ++ ". "
                        ++ "HTTP response body="
                        ++ Response.text resp))
  | Return errors =>
      let resp_code := Response.status_code resp in
      if resp_code =? 422 then raise_new class_ResourceError resp_code errors
      else if resp_code =? 429 then Raise RateLimitError
      else if (400 <=? resp_code) && (resp_code <? 500)
      then raise_new class_RequestError resp_code errors
      else if (500 <=? resp_code) && (resp_code <? 600)
      then raise_new class_ServerError resp_code errors
      else Raise (Exception "Unknown HTTP error response")
  end.

(** The network: the response (or transport failure) that answers a
    request. *)
Variable transport : Request.t -> outcome Response.t.

(** [requests.request(...)]: one request goes out and is answered. *)
Definition requests_request (req : Request.t) : IO Response.t :=
  fun log => (transport req, (log ++ [req])%list).

(** [HttpClient.request(method, url, params, body, **kwargs)].  The keyword
    arguments are accepted and not used. *)
Definition request (self : HttpClient) (method url : string)
    (params body : value) (kwargs : list (string * value))
  : IO (Z * list (string * string) * resp_body) :=
  let url := base_url (config self) ++ API_VERSION ++ url in
  let headers := [ ("Accept", "application/json");
                   ("Authorization", "Bearer " ++ access_token (config self));
                   ("User-Agent", user_agent (config self)) ] in
  let '(headers, body) :=
    if is_not_None body
    then (dict_set headers "Content-Type" "application/json",
          VStr (json_dumps (wrap_envelope body)))
    else (headers, body) in
  (resp <- requests_request
             {| Request.method := method;
                Request.url := url;
                Request.params := params;
                Request.data := body;
                Request.headers := headers;
                Request.timeout := timeout (config self);
                Request.verify := verify_ssl (config self) |} ;;
   _ <- (if negb ((200 <=? Response.status_code resp)
                  && (Response.status_code resp <? 300))
         then lift (handle_error_response resp)
         else io_ret tt) ;;
   resp_body <- (match header_get (Response.headers resp) "Content-Type" with
                 | Some content_type =>
                     if str_contains "json" content_type
                     then lift (parsed <- Response.json resp ;;
                                unwrapped <- unwrap_envelope parsed ;;
                                Return (Decoded unwrapped))%py
                     else io_ret (Content (Response.content resp))
                 | None => io_ret (Content (Response.content resp))
                 end) ;;
   io_ret (Response.status_code resp, Response.headers resp, resp_body))%io.

(** [kwargs] gives a second value to an argument of the call
    [self.request(method, url, name=v, **kwargs)]: to the keyword [name]
    or to a parameter that is bound by position. *)
Definition rebinds (name : string) (kwargs : list (string * value)) : bool :=
  dict_has kwargs name || dict_has kwargs "self"
  || dict_has kwargs "method" || dict_has kwargs "url".

(** The value a keyword is bound to, [None] when it is not given. *)
Definition keyword (keywords : list (string * value)) (name : string) : value :=
  match dict_get keywords name with
  | Some v => v
  | None => VNone
  end.

(** The keywords that name no parameter of [request]: its [**kwargs]. *)
Definition other_keywords (keywords : list (string * value))
  : list (string * value) :=
  filter (fun '(k, _) => negb (String.eqb k "params" || String.eqb k "body"))
         keywords.

(** The call [self.request(method, url, name=v, **kwargs)] of the four
    verbs, with Python's binding of arguments to the parameters
    [(self, method, url, params=None, body=None, **kwargs)] of [request]:
    a keyword of [kwargs] that repeats [name] or names one of the
    parameters bound by position is a [TypeError] of the call, before
    [request] runs; [params] and [body] take the keyword of their name or
    [None]; the keywords left are the [kwargs] of [request]. *)
Definition call_request (self : HttpClient) (method url : string)
    (name : string) (v : value) (kwargs : list (string * value))
  : IO (Z * list (string * string) * resp_body) :=
  if rebinds name kwargs
  then lift (Raise TypeError)
  else
    let keywords := (name, v) :: kwargs in
    request self method url (keyword keywords "params")
            (keyword keywords "body") (other_keywords keywords).

(** [get(url, params=None, **kwargs)]. *)
Definition get (self : HttpClient) (url : string) (params : value)
    (kwargs : list (string * value)) :=
  call_request self "get" url "params" params kwargs.

(** [post(url, body=None, **kwargs)]. *)
Definition post (self : HttpClient) (url : string) (body : value)
    (kwargs : list (string * value)) :=
  call_request self "post" url "body" body kwargs.

(** [put(url, body=None, **kwargs)]. *)
Definition put (self : HttpClient) (url : string) (body : value)
    (kwargs : list (string * value)) :=
  call_request self "put" url "body" body kwargs.

(** [delete(url, params=None, **kwargs)]. *)
Definition delete (self : HttpClient) (url : string) (params : value)
    (kwargs : list (string * value)) :=
  call_request self "delete" url "params" params kwargs.

End Gateway.

(** ** A JSON encoder and a sample exchange, to run the gateway on *)

Definition quote : string := String (ascii_of_nat 34) EmptyString.
Definition backslash : string := String (ascii_of_nat 92) EmptyString.

Definition hex_digit (n : nat) : string :=
  String (ascii_of_nat (if Nat.ltb n 10 then 48 + n else 87 + n)) EmptyString.

(** One character of a JSON string as [json.dumps] writes it with its
    default [ensure_ascii]: the printable ASCII characters stand for
    themselves, the quote and the backslash are escaped, five control
    characters have a short escape and every other one is written
    [\u00XX]. *)
Definition escape_char (c : ascii) : string :=
  let n := nat_of_ascii c in
  if Nat.eqb n 34 then backslash ++ quote
  else if Nat.eqb n 92 then backslash ++ backslash
  else if Nat.eqb n 10 then backslash ++ "n"
  else if Nat.eqb n 13 then backslash ++ "r"
  else if Nat.eqb n 9 then backslash ++ "t"
  else if Nat.eqb n 12 then backslash ++ "f"
  else if Nat.eqb n 8 then backslash ++ "b"
  else if (Nat.leb 32 n && Nat.leb n 126)%bool then String c EmptyString
  else backslash ++ "u00" ++ hex_digit (Nat.div n 16) ++ hex_digit (Nat.modulo n 16).

Fixpoint escape (s : string) : string :=
  match s with
  | EmptyString => EmptyString
  | String c rest => escape_char c ++ escape rest
  end.

Definition json_string (s : string) : string := quote ++ escape s ++ quote.

Fixpoint zeros (n : nat) : string :=
  match n with
  | O => EmptyString
  | S n' => String "0" (zeros n')
  end.

(** [s] without the zeros it ends in. *)
Fixpoint strip_zeros (s : string) : string :=
  match s with
  | EmptyString => EmptyString
  | String c rest =>
      let kept := strip_zeros rest in
      if (String.eqb kept EmptyString && Ascii.eqb c "0")%bool
      then EmptyString else String c kept
  end.

(** The digits after the point of [r / 10 ^ k], for [0 <= r < 10 ^ k]. *)
Definition fraction (r : Z) (k : nat) : string :=
  let digits := str_of_int r in
  let kept := strip_zeros (zeros (k - String.length digits) ++ digits) in
  if String.eqb kept EmptyString then "0" else kept.

(** A float as a JSON number.  [json.dumps] writes [float.__repr__], the
    shortest decimal that reads back as the float; this encoder writes
    the exact decimal value of the float, which reads back as the same
    float, and the three names [json.dumps] has for the other floats. *)
Definition float_decimal (f : spec_float) : string :=
  match f with
  | S754_nan => "NaN"
  | S754_infinity false => "Infinity"
  | S754_infinity true => "-Infinity"
  | S754_zero false => "0.0"
  | S754_zero true => "-0.0"
  | S754_finite s m e =>
      (if s then "-" else "")
      ++ (if 0 <=? e
          then str_of_int (Z.pos m * 2 ^ e) ++ ".0"
          else str_of_int (Z.pos m / 2 ^ (- e)) ++ "."
               ++ fraction ((Z.pos m mod 2 ^ (- e)) * 5 ^ (- e))
                    (Z.to_nat (- e)))
  end.

(** [json.dumps] with its default separators, on the value domain. *)
Fixpoint dumps (x : value) : string :=
  match x with
  | VNone => "null"
  | VBool true => "true"
  | VBool false => "false"
  | VInt n => str_of_int n
  | VFloat f => float_decimal f
  | VStr s => json_string s
  | VList xs =>
      "["
      ++ (fix elements (l : list value) : string :=
            match l with
            | [] => ""
            | y :: rest =>
                match rest with
                | [] => dumps y
                | _ :: _ => dumps y ++ ", " ++ elements rest
                end
            end) xs
      ++ "]"
  | VDict _ kvs =>
      "{"
      ++ (fix entries (l : list (string * value)) : string :=
            match l with
            | [] => ""
            | (k, v) :: rest =>
                match rest with
                | [] => json_string k ++ ": " ++ dumps v
                | _ :: _ => json_string k ++ ": " ++ dumps v ++ ", " ++ entries rest
                end
            end) kvs
      ++ "}"
  end.

(** The constructor that [ResourceError], [RequestError] and [ServerError]
    share in the basecrm package, [BaseError.__init__(http_status,
    errors_payload)]: it keeps the status code, the [error] of every
    element of [errors_payload['errors']], and
    [errors_payload['meta']['logref']].  A payload that is not of this
    shape makes the subscripts raise.  The gateway is stated for any
    constructor; this one is what the exchanges below are run with. *)
Definition BaseError (cls : error_class) (http_status : Z)
    (errors_payload : value) : outcome exn :=
  (envelopes <- getitem errors_payload "errors" ;;
   elements <- py_iter envelopes ;;
   errors <- comprehension
               (fun error_envelope =>
                  error <- getitem error_envelope "error" ;;
                  Return (bunchify error))
               elements ;;
   meta <- getitem errors_payload "meta" ;;
   logref <- getitem meta "logref" ;;
   Return (instance cls http_status (VList errors) logref))%py.

Module Sample.

Definition client : HttpClient :=
  {| config := {| base_url := "https://api.getbase.com";
                  access_token := "t0k3n";
                  user_agent := "BaseCRM/V2 Python/1.0";
                  timeout := 30 # 1;
                  verify_ssl := true;
                  verbose := false |} |}.

Definition json_headers : list (string * string) :=
  [("Content-Type", "application/json; charset=utf-8")].

(** A response that carries a JSON document. *)
Definition json_response (status : Z) (raw : string) (parsed : value) : Response.t :=
  {| Response.status_code := status;
     Response.headers := json_headers;
     Response.content := raw;
     Response.text := raw;
     Response.json := Return parsed |}.

(** A response whose body is not JSON: [resp.json()] raises. *)
Definition html_response (status : Z) (raw : string) : Response.t :=
  {| Response.status_code := status;
     Response.headers := [("Content-Type", "text/html")];
     Response.content := raw;
     Response.text := raw;
     Response.json := Raise ValueError |}.

(** A network that answers every request with the same response. *)
Definition always (resp : Response.t) : Request.t -> outcome Response.t :=
  fun _ => Return resp.

Definition lead : value := VDict false [("id", VInt 1); ("name", VStr "Ann")].

Definition errors : value :=
  VDict false [("errors", VList [VDict false [("code", VInt 1001)]])].

(** An error body as the API sends it: enveloped errors and a log
    reference. *)
Definition invalid : value :=
  VDict false [("code", VStr "invalid"); ("message", VStr "no such lead")].

Definition api_errors : value :=
  VDict false [("errors", VList [VDict false [("error", invalid)]]);
               ("meta", VDict false [("logref", VStr "a1b2")])].

(** A collection response body: two items in the envelope. *)
Definition collection : value :=
  VDict false [("items", VList [wrap_envelope lead; wrap_envelope (VInt 2)])].

(** [client.get('/leads')] against a network that answers [resp]. *)
Definition get_leads (resp : Response.t) :=
  get dumps BaseError (always resp) client "/leads" VNone [].

Definition unavailable : Response.t := html_response 503 "Service Unavailable".
Definition throttled : Response.t := html_response 429 "Too Many Requests".
Definition not_found : Response.t := json_response 404 "-" errors.
Definition no_such_lead : Response.t := json_response 404 "-" api_errors.
Definition limited : Response.t := json_response 429 "-" errors.
Definition moved : Response.t := json_response 302 "-" errors.
Definition found : Response.t := json_response 200 "-" (wrap_envelope lead).
Definition bare : Response.t := json_response 200 "{}" (VDict false []).

End Sample.

(** ** Predicates on results and a network that is down *)

(** Every dict in [x], at every depth, is a [Bunch]. *)
Fixpoint all_bunch (x : value) : bool :=
  match x with
  | VDict bunch kvs => bunch && forallb (fun '(_, v) => all_bunch v) kvs
  | VList xs => forallb all_bunch xs
  | _ => true
  end.

(** [x] has no element to iterate over: [{}] or the empty string. *)
Definition is_empty (x : value) : bool :=
  match x with
  | VDict _ [] => true
  | VStr EmptyString => true
  | _ => false
  end.

(** [x] is a list (a JSON array). *)
Definition is_list (x : value) : bool :=
  match x with
  | VList _ => true
  | _ => false
  end.

(** The computation sends one request, under [method], with the query
    parameters [params] and with [body] as its payload: the encoded
    envelope and a Content-Type header when [body] is not [None], neither
    of them when it is. *)
Definition sends {A : Type} (json_dumps : value -> string) (c : IO A)
    (method : string) (params body : value) : Prop :=
  exists req,
    sent c = [req]
    /\ Request.method req = method
    /\ Request.params req = params
    /\ Request.data req
       = (if is_not_None body
          then VStr (json_dumps (wrap_envelope body)) else VNone)
    /\ header_get (Request.headers req) "Content-Type"
       = (if is_not_None body then Some "application/json" else None).

Module Scenario.

(** A network that cannot be reached: every request fails in transport. *)
Definition unreachable : Request.t -> outcome Response.t :=
  fun _ => Raise ConnectionError.

(** A success response that says it is JSON and whose body is not. *)
Definition garbled : Response.t :=
  {| Response.status_code := 200;
     Response.headers := Sample.json_headers;
     Response.content := "<html>";
     Response.text := "<html>";
     Response.json := Raise ValueError |}.

(** An error response whose JSON body is an array, not an object. *)
Definition gone : Response.t :=
  Sample.json_response 410 "[]" (VList []).

End Scenario.

(** * Properties *)

(** ** Values *)

Lemma dict_get_first {V : Type} (kvs : list (string * V)) (k : string) (v : V) :
  distinct (map fst kvs) = true -> In (k, v) kvs -> dict_get kvs k = Some v.
Proof.
  induction kvs as [|[k' v'] rest IH]; simpl; intros Hd Hin; [contradiction|].
  apply andb_prop in Hd as [Hfresh Hrest].
  destruct Hin as [Heq | Hin].
  - inversion Heq; subst. now rewrite String.eqb_refl.
  - destruct (String.eqb_spec k' k) as [-> | _]; [|now apply IH].
    apply negb_true_iff in Hfresh.
    assert (existsb (String.eqb k) (map fst rest) = true) as Hex.
    { apply existsb_exists. exists k. split; [|apply String.eqb_refl].
      change k with (fst (k, v)). now apply in_map. }
    congruence.
Qed.

Lemma dict_get_In {V : Type} (kvs : list (string * V)) (k : string) (v : V) :
  dict_get kvs k = Some v -> In (k, v) kvs.
Proof.
  induction kvs as [|[k' v'] rest IH]; simpl; [discriminate|].
  destruct (String.eqb_spec k' k) as [-> | _]; intros H.
  - left. congruence.
  - right. now apply IH.
Qed.

Lemma well_formed_dict_get bunch kvs k v :
  well_formed (VDict bunch kvs) = true -> dict_get kvs k = Some v ->
  well_formed v = true.
Proof.
  simpl. intros Hwf Hget. apply andb_prop in Hwf as [_ Hall].
  rewrite forallb_forall in Hall. exact (Hall _ (dict_get_In _ _ _ Hget)).
Qed.

Lemma py_eq_list (xs ys : list value) :
  py_eq (VList xs) (VList ys) = true <->
  Forall2 (fun x y => py_eq x y = true) xs ys.
Proof.
  revert ys. induction xs as [|x xs IH]; intros [|y ys]; simpl; split; intros H;
    try discriminate; try constructor; try solve [inversion H].
  - now apply andb_prop in H.
  - apply IH. now apply andb_prop in H.
  - inversion H; subst. apply andb_true_intro. split; [assumption|]. now apply IH.
Qed.

Lemma py_eq_dict (b1 b2 : bool) (l store : list (string * value)) :
  py_eq (VDict b1 l) (VDict b2 store) =
  Nat.eqb (List.length l) (List.length store)
  && forallb (fun '(k, v) => match dict_get store k with
                             | Some w => py_eq v w
                             | None => false
                             end) l.
Proof.
  simpl. f_equal. induction l as [|[k v] rest IH]; [reflexivity|].
  simpl. now rewrite IH.
Qed.

(** A float that is a number is equal to itself. *)
Lemma SFeqb_refl (f : spec_float) : f <> S754_nan -> SFeqb f f = true.
Proof.
  unfold SFeqb. destruct f as [s|s| |s m e]; simpl; try congruence;
    intros _; destruct s; try reflexivity;
    rewrite Z.compare_refl; fold (Pos.compare m m);
    now rewrite Pos.compare_refl.
Qed.

Lemma nan_free_dict_get bunch kvs k v :
  nan_free (VDict bunch kvs) = true -> dict_get kvs k = Some v ->
  nan_free v = true.
Proof.
  simpl. intros Hall Hget.
  rewrite forallb_forall in Hall. exact (Hall _ (dict_get_In _ _ _ Hget)).
Qed.

(** [bunchify] changes the class of the dicts and nothing that [==] sees. *)
Lemma py_eq_bunchify (x : value) :
  well_formed x = true -> nan_free x = true -> py_eq (bunchify x) x = true.
Proof.
  induction x as [| | |f| |xs IH|bunch kvs IH] using value_ind;
    intros Hwf Hnum; try reflexivity.
  - apply Bool.eqb_reflx.
  - apply Z.eqb_refl.
  - apply SFeqb_refl. intros ->. discriminate.
  - apply String.eqb_refl.
  - simpl bunchify. apply py_eq_list. simpl in Hwf, Hnum.
    rewrite forallb_forall in Hwf, Hnum. rewrite Forall_forall in IH.
    induction xs as [|y rest IHrest]; simpl; constructor.
    + apply IH; [now left | apply Hwf | apply Hnum]; now left.
    + apply IHrest; intros z Hz;
        first [apply IH | apply Hwf | apply Hnum]; now right.
  - simpl in Hwf, Hnum. apply andb_prop in Hwf as [Hkeys Hvals].
    simpl bunchify. rewrite py_eq_dict, length_map, Nat.eqb_refl. simpl.
    rewrite forallb_forall in *. rewrite Forall_forall in IH.
    intros [k v'] Hin. apply in_map_iff in Hin as [[k0 v] [Heq Hin]].
    inversion Heq; subst. rewrite (dict_get_first _ _ _ Hkeys Hin).
    apply (IH _ Hin); [exact (Hvals _ Hin) | exact (Hnum _ Hin)].
Qed.

(** ** The envelope *)

Lemma comprehension_Forall2 {A B : Type} (f : A -> outcome B) (xs : list A) (ys : list B) :
  Forall2 (fun x y => f x = Return y) xs ys -> comprehension f xs = Return ys.
Proof.
  induction 1 as [|x y xs ys Hxy _ IH]; simpl; [reflexivity|].
  now rewrite Hxy, IH.
Qed.


Lemma well_formed_getitem (x : value) (key : string) (d : value) :
  well_formed x = true -> getitem x key = Return d -> well_formed d = true.
Proof.
  destruct x as [| | | | | |bunch kvs]; simpl; try discriminate.
  intros Hwf. destruct (dict_get kvs key) as [v|] eqn:Hget; [|discriminate].
  intros [= <-]. exact (well_formed_dict_get bunch kvs key v Hwf Hget).
Qed.

Lemma well_formed_py_iter (x : value) (elements : list value) :
  well_formed x = true -> py_iter x = Return elements ->
  forallb well_formed elements = true.
Proof.
  destruct x as [| | | |s|xs|bunch kvs]; simpl; try discriminate.
  - intros _ [= <-]. induction s; simpl; auto.
  - now intros Hwf [= <-].
  - intros _ [= <-]. induction kvs; simpl; auto.
Qed.

(** C1: on a parsed JSON object, [unwrap_envelope] returns the [data] of
    every element of [items], in the order of [items], when the object
    has an [items] key, and the top-level [data] otherwise. *)
Theorem unwrap_envelope_shapes (bunch : bool) (kvs : list (string * value)) :
  well_formed (VDict bunch kvs) = true ->
  (forall items elements datas,
      dict_get kvs "items" = Some items ->
      py_iter items = Return elements ->
      Forall2 (fun item d => getitem item "data" = Return d) elements datas ->
      unwrap_envelope (VDict bunch kvs) = Return (VList (map bunchify datas))
      /\ (nan_free (VList datas) = true ->
          py_eq (VList (map bunchify datas)) (VList datas) = true))
  /\ (forall d,
      dict_get kvs "items" = None ->
      dict_get kvs "data" = Some d ->
      unwrap_envelope (VDict bunch kvs) = Return (bunchify d)
      /\ (nan_free d = true -> py_eq (bunchify d) d = true)).
Proof.
  intros Hwf. split.
  - intros items elements datas Hitems Hiter Hdata.
    unfold unwrap_envelope. simpl. unfold dict_has. rewrite Hitems. simpl.
    rewrite Hiter. simpl.
    rewrite (comprehension_Forall2 _ elements (map bunchify datas)).
    + split; [reflexivity|]. intros Hnum.
      change (py_eq (bunchify (VList datas)) (VList datas) = true).
      apply py_eq_bunchify; [|exact Hnum].
      simpl. pose proof (well_formed_dict_get _ _ _ _ Hwf Hitems) as Hwi.
      pose proof (well_formed_py_iter _ _ Hwi Hiter) as Hwe.
      clear -Hwe Hdata.
      induction Hdata as [|item d l l' H _ IH]; simpl in *; [reflexivity|].
      apply andb_prop in Hwe as [Hitem Hrest].
      rewrite (well_formed_getitem _ _ _ Hitem H). now apply IH.
    + clear -Hdata. induction Hdata as [|item d l l' H _ IH]; simpl; constructor; auto.
      now rewrite H.
  - intros d Hno Hdata. unfold unwrap_envelope. simpl. unfold dict_has.
    rewrite Hno, Hdata. simpl. split; [reflexivity|]. intros Hnum.
    apply py_eq_bunchify; [eapply well_formed_dict_get; eauto | exact Hnum].
Qed.


(** ** The gateway *)

Lemma handle_error_response_raises
    (new_error : error_class -> Z -> value -> outcome exn) (resp : Response.t) :
  exists e, handle_error_response new_error resp = Raise e.
Proof.
  unfold handle_error_response, raise_new, bind.
  repeat match goal with
         | |- context [match ?c with _ => _ end] => destruct c
         end; eauto.
Qed.

(** Case analysis on the tests and calls a goal branches on. *)
Ltac branch :=
  repeat match goal with
         | |- context [match ?c with _ => _ end] =>
             match type of c with
             | bool => destruct c
             | option _ => destruct c
             | outcome _ => destruct c
             end; simpl
         end.

Section GatewayFacts.

Variable json_dumps : value -> string.
Variable new_error : error_class -> Z -> value -> outcome exn.
Variable transport : Request.t -> outcome Response.t.
Variables (self : HttpClient) (method url : string) (params body : value).
Variable kwargs : list (string * value).

Local Abbreviation call :=
  (request json_dumps new_error transport self method url params body kwargs).

(** Every call sends one request, whose fields are these. *)
Lemma request_sent :
  sent call =
  [ {| Request.method := method;
       Request.url := base_url (config self) ++ "/v2" ++ url;
       Request.params := params;
       Request.data := if is_not_None body
                       then VStr (json_dumps (wrap_envelope body))
                       else VNone;
       Request.headers :=
         ([ ("Accept", "application/json");
            ("Authorization", ("Bearer " ++ access_token (config self))%string);
            ("User-Agent", user_agent (config self)) ]
          ++ (if is_not_None body
              then [("Content-Type", "application/json")]
              else []))%list;
       Request.timeout := timeout (config self);
       Request.verify := verify_ssl (config self) |} ].
Proof.
  unfold call, sent, request, io_bind, requests_request, lift, io_ret.
  destruct body; simpl; branch; reflexivity.
Qed.

(** What a call makes of the response to its request. *)
Lemma request_result (req : Request.t) (resp : Response.t) :
  sent call = [req] ->
  transport req = Return resp ->
  result call =
  (_ <- (if negb ((200 <=? Response.status_code resp)
                  && (Response.status_code resp <? 300))
         then handle_error_response new_error resp
         else Return tt) ;;
   resp_body <- (match header_get (Response.headers resp) "Content-Type" with
                 | Some content_type =>
                     if str_contains "json" content_type
                     then (parsed <- Response.json resp ;;
                           unwrapped <- unwrap_envelope parsed ;;
                           Return (Decoded unwrapped))
                     else Return (Content (Response.content resp))
                 | None => Return (Content (Response.content resp))
                 end) ;;
   Return (Response.status_code resp, Response.headers resp, resp_body))%py.
Proof.
  rewrite request_sent. intros [= <-].
  unfold call, result, request, io_bind, requests_request, lift, io_ret.
  destruct body; simpl; intros ->; simpl; branch; reflexivity.
Qed.

Lemma request_transport_failure (req : Request.t) (e : exn) :
  sent call = [req] -> transport req = Raise e -> result call = Raise e.
Proof.
  rewrite request_sent. intros [= <-].
  unfold call, result, request, io_bind, requests_request.
  destruct body; simpl; intros ->; reflexivity.
Qed.

(** C2: a body that is not None goes out as the JSON encoding of
    [{"data": body}]; with no body, nothing is serialized and no payload
    is sent. *)
Theorem request_payload :
  exists req,
    sent call = [req]
    /\ (body <> VNone ->
        Request.data req = VStr (json_dumps (VDict false [("data", body)])))
    /\ (body = VNone -> Request.data req = VNone).
Proof.
  eexists. split; [apply request_sent|]. simpl.
  split; intros Hbody; destruct body; simpl; try reflexivity; congruence.
Qed.

(** C7: the one request a call sends goes to
    [base_url + "/v2" + path]. *)
Theorem request_url :
  exists req,
    sent call = [req]
    /\ Request.url req = base_url (config self) ++ "/v2" ++ url
    /\ API_VERSION = "/v2".
Proof.
  eexists. split; [apply request_sent|]. split; reflexivity.
Qed.

(** C8: the request carries the Accept, Authorization and User-Agent
    headers, and Content-Type exactly when a body is given. *)
Theorem request_headers :
  exists req,
    sent call = [req]
    /\ (body = VNone ->
        Request.headers req =
        [ ("Accept", "application/json");
          ("Authorization", "Bearer " ++ access_token (config self));
          ("User-Agent", user_agent (config self)) ])
    /\ (body <> VNone ->
        Request.headers req =
        [ ("Accept", "application/json");
          ("Authorization", "Bearer " ++ access_token (config self));
          ("User-Agent", user_agent (config self));
          ("Content-Type", "application/json") ]).
Proof.
  eexists. split; [apply request_sent|]. simpl.
  split; intros Hbody; destruct body; simpl; try reflexivity; congruence.
Qed.

Section Answered.

Variables (req : Request.t) (resp : Response.t).
Hypothesis Hsent : sent call = [req].
Hypothesis Hresp : transport req = Return resp.

Local Abbreviation code := (Response.status_code resp).

(** Outside of [200, 300) the call ends as [handle_error_response] does. *)
Lemma request_failure (e : exn) :
  ~ (200 <= code < 300) ->
  handle_error_response new_error resp = Raise e ->
  result call = Raise e.
Proof.
  intros Hcode Herr. rewrite (request_result req resp Hsent Hresp).
  replace ((200 <=? code) && (code <? 300)) with false by lia.
  simpl. now rewrite Herr.
Qed.

(** [raise cls(...)] ends in the same exception wherever it stands. *)
Lemma raise_new_raises {A B : Type} (cls : error_class) (http_status : Z)
    (errors : value) :
  exists e,
    raise_new new_error cls http_status errors = @Raise A e
    /\ raise_new new_error cls http_status errors = @Raise B e.
Proof.
  unfold raise_new, bind.
  destruct (new_error cls http_status errors) as [e|e]; now exists e.
Qed.

(** C3 (amended): a response outside of [200, 300) whose body parses
    fails by its status code: with the error constructed from the status
    code and the parsed body at 422, at the other codes from 400 to 499
    and from 500 to 599, or with what that construction raises; with a
    rate limit error at 429; with the generic error at any other code. *)
Theorem error_mapping (errors : value) :
  ~ (200 <= code < 300) ->
  Response.json resp = Return errors ->
  (code = 422 ->
   result call = raise_new new_error class_ResourceError 422 errors)
  /\ (code = 429 -> result call = Raise RateLimitError)
  /\ (400 <= code < 500 -> code <> 422 -> code <> 429 ->
      result call = raise_new new_error class_RequestError code errors)
  /\ (500 <= code < 600 ->
      result call = raise_new new_error class_ServerError code errors)
  /\ (code < 400 \/ 600 <= code ->
      result call = Raise (Exception "Unknown HTTP error response")).
Proof.
  intros Hcode Hjson.
  assert (forall cls,
             handle_error_response new_error resp
             = raise_new new_error cls code errors ->
             result call = raise_new new_error cls code errors) as Hnew.
  { intros cls Hraise.
    destruct (raise_new_raises (A := unit)
                (B := Z * list (string * string) * resp_body)
                cls code errors) as (e & Hunit & ->).
    apply request_failure; [exact Hcode | congruence]. }
  repeat split; intros;
    try (apply request_failure; trivial);
    try (replace 422 with code by lia; apply Hnew);
    try apply Hnew;
    unfold handle_error_response; rewrite Hjson; cbv zeta.
  - now replace (code =? 422) with true by lia.
  - replace (code =? 422) with false by lia.
    now replace (code =? 429) with true by lia.
  - replace (code =? 422) with false by lia.
    replace (code =? 429) with false by lia.
    now replace ((400 <=? code) && (code <? 500)) with true by lia.
  - replace (code =? 422) with false by lia.
    replace (code =? 429) with false by lia.
    replace ((400 <=? code) && (code <? 500)) with false by lia.
    now replace ((500 <=? code) && (code <? 600)) with true by lia.
  - replace (code =? 422) with false by lia.
    replace (code =? 429) with false by lia.
    replace ((400 <=? code) && (code <? 500)) with false by lia.
    now replace ((500 <=? code) && (code <? 600)) with false by lia.
Qed.

(** C4 (amended): status 429 is a rate limit error whatever the
    parsed body holds; a body that is not JSON ends in the generic error
    with the status code and the text. *)
Theorem rate_limit_error :
  code = 429 ->
  (forall errors, Response.json resp = Return errors ->
                  result call = Raise RateLimitError)
  /\ (forall e, Response.json resp = Raise e ->
                result call =
                Raise (Exception ("Unknown HTTP error response. Json expected. "
                                  ++ "HTTP response code=429. "
                                  ++ "HTTP response body=" ++ Response.text resp))).
Proof.
  intros Hcode. split; intros x Hjson; apply request_failure; try lia;
    unfold handle_error_response; rewrite Hjson, ?Hcode; reflexivity.
Qed.

(** C5: a response outside of [200, 300) whose body is not JSON fails with
    the generic error whose message holds the status code and the text. *)
Theorem unparseable_error (e : exn) :
  ~ (200 <= code < 300) ->
  Response.json resp = Raise e ->
  result call =
  Raise (Exception ("Unknown HTTP error response. Json expected. "
                    ++ "HTTP response code=" ++ str_of_int code ++ ". "
                    ++ "HTTP response body=" ++ Response.text resp)).
Proof.
  intros Hcode Hjson. apply request_failure; trivial.
  unfold handle_error_response. now rewrite Hjson.
Qed.

(** In [200, 300), a response that says it is JSON is decoded and
    unwrapped; a failure of either step is the failure of the call. *)
Lemma request_decoded (content_type : string) :
  200 <= code < 300 ->
  header_get (Response.headers resp) "Content-Type" = Some content_type ->
  str_contains "json" content_type = true ->
  result call =
  (parsed <- Response.json resp ;;
   unwrapped <- unwrap_envelope parsed ;;
   Return (code, Response.headers resp, Decoded unwrapped))%py.
Proof.
  intros Hcode Hct Hjson. rewrite (request_result req resp Hsent Hresp).
  replace ((200 <=? code) && (code <? 300)) with true by lia. simpl.
  rewrite Hct, Hjson. destruct (Response.json resp) as [parsed|]; simpl; trivial.
  now destruct (unwrap_envelope parsed).
Qed.

(** C6 (amended): in [200, 300) the call returns the status code, the
    headers and the body: as it came when Content-Type is missing or
    holds no [json]; decoded and unwrapped when Content-Type holds
    [json], the body parses and follows the envelope, and otherwise the
    call raises what the parsing or the unwrapping raises.  Outside of
    [200, 300) it raises. *)
Theorem request_outcome :
  (200 <= code < 300 ->
   (forall content_type,
       header_get (Response.headers resp) "Content-Type" = Some content_type ->
       str_contains "json" content_type = true ->
       (forall parsed unwrapped,
           Response.json resp = Return parsed ->
           unwrap_envelope parsed = Return unwrapped ->
           result call
           = Return (code, Response.headers resp, Decoded unwrapped))
       /\ (forall e, Response.json resp = Raise e -> result call = Raise e)
       /\ (forall parsed e,
              Response.json resp = Return parsed ->
              unwrap_envelope parsed = Raise e ->
              result call = Raise e))
   /\ (header_get (Response.headers resp) "Content-Type" = None
       \/ (exists content_type,
              header_get (Response.headers resp) "Content-Type" = Some content_type
              /\ str_contains "json" content_type = false) ->
       result call =
       Return (code, Response.headers resp, Content (Response.content resp))))
  /\ (~ (200 <= code < 300) -> exists e, result call = Raise e).
Proof.
  split.
  - intros Hcode. split.
    + intros ct Hct Hjson. rewrite (request_decoded ct Hcode Hct Hjson).
      repeat split.
      * intros parsed unwrapped Hparsed Hunwrapped.
        rewrite Hparsed. simpl. now rewrite Hunwrapped.
      * now intros e ->.
      * intros parsed e Hparsed Hraised.
        rewrite Hparsed. simpl. now rewrite Hraised.
    + rewrite (request_result req resp Hsent Hresp).
      replace ((200 <=? code) && (code <? 300)) with true by lia. simpl.
      intros [-> | (ct & -> & ->)]; reflexivity.
  - intros Hcode. destruct (handle_error_response_raises new_error resp) as [e He].
    exists e. now apply request_failure.
Qed.


End Answered.

End GatewayFacts.

(** ** The gateway at concrete exchanges *)

Example post_lead_sent :
  sent (post dumps BaseError (Sample.always Sample.found) Sample.client "/leads" Sample.lead [])
  = [ {| Request.method := "post";
         Request.url := "https://api.getbase.com/v2/leads";
         Request.params := VNone;
         Request.data := VStr (dumps (wrap_envelope Sample.lead));
         Request.headers := [ ("Accept", "application/json");
                              ("Authorization", "Bearer t0k3n");
                              ("User-Agent", "BaseCRM/V2 Python/1.0");
                              ("Content-Type", "application/json") ];
         Request.timeout := 30 # 1;
         Request.verify := true |} ].
Proof. reflexivity. Qed.

Example lead_on_the_wire :
  dumps (wrap_envelope Sample.lead)
  = "{" ++ quote ++ "data" ++ quote ++ ": {"
        ++ quote ++ "id" ++ quote ++ ": 1, "
        ++ quote ++ "name" ++ quote ++ ": " ++ quote ++ "Ann" ++ quote ++ "}}".
Proof. reflexivity. Qed.

Example collection_unwrapped :
  result (Sample.get_leads (Sample.json_response 200 "-" Sample.collection))
  = Return (200, Sample.json_headers,
            Decoded (VList [bunchify Sample.lead; VInt 2])).
Proof. reflexivity. Qed.

Example element_without_data :
  result (Sample.get_leads
            (Sample.json_response 200 "-"
               (VDict false [("items", VList [wrap_envelope Sample.lead;
                                              VDict false []])])))
  = Raise (KeyError "data").
Proof. reflexivity. Qed.

Example element_not_an_object :
  result (Sample.get_leads
            (Sample.json_response 200 "-"
               (VDict false [("items", VList [VInt 5; VDict false []])])))
  = Raise TypeError.
Proof. reflexivity. Qed.

Example redirect_is_unknown :
  result (Sample.get_leads Sample.moved)
  = Raise (Exception "Unknown HTTP error response").
Proof. reflexivity. Qed.

Example html_page_returned :
  result (Sample.get_leads (Sample.html_response 200 "<html>"))
  = Return (200, [("Content-Type", "text/html")], Content "<html>").
Proof. reflexivity. Qed.

Example get_with_body_keyword :
  sends dumps
        (get dumps BaseError (Sample.always Sample.found) Sample.client "/leads"
             VNone [("body", Sample.lead)])
        "get" VNone Sample.lead.
Proof. eexists. repeat split. Qed.

Example post_with_params_keyword :
  sends dumps
        (post dumps BaseError (Sample.always Sample.found) Sample.client "/leads"
              Sample.lead [("params", VDict false [("page", VInt 2)])])
        "post" (VDict false [("page", VInt 2)]) Sample.lead.
Proof. eexists. repeat split. Qed.

Example get_with_method_keyword :
  get dumps BaseError (Sample.always Sample.found) Sample.client "/leads"
      VNone [("method", VStr "post")] []
  = (Raise TypeError, []).
Proof. reflexivity. Qed.

Example server_error_without_meta :
  result (Sample.get_leads
            (Sample.json_response 500 "-" (VDict false [("errors", VList [])])))
  = Raise (KeyError "meta").
Proof. reflexivity. Qed.

Example error_body_not_an_object :
  result (Sample.get_leads Scenario.gone) = Raise TypeError.
Proof. reflexivity. Qed.

Example server_error_constructed :
  result (Sample.get_leads (Sample.json_response 503 "-" Sample.api_errors))
  = Raise (ServerError 503 (VList [bunchify Sample.invalid]) (VStr "a1b2")).
Proof. reflexivity. Qed.

Example nested_nan_compared_apart :
  py_eq (VList [VFloat S754_nan]) (VList [VFloat S754_nan]) = false.
Proof. reflexivity. Qed.

Example one_is_one_point_zero :
  py_eq (VInt 1) (VFloat (S754_finite false 1 0)) = true.
Proof. reflexivity. Qed.

Example header_name_any_case :
  header_get [("content-type", "application/json")] "Content-Type"
  = Some "application/json".
Proof. reflexivity. Qed.

(** ** The claims at concrete exchanges *)

Lemma unwrap_envelope_shapes_witness :
  unwrap_envelope Sample.collection = Return (VList [bunchify Sample.lead; VInt 2])
  /\ py_eq (VList [bunchify Sample.lead; VInt 2]) (VList [Sample.lead; VInt 2]) = true.
Proof.
  destruct (proj1 (unwrap_envelope_shapes false
                     [("items", VList [wrap_envelope Sample.lead;
                                       wrap_envelope (VInt 2)])]
                     eq_refl)
              (VList [wrap_envelope Sample.lead; wrap_envelope (VInt 2)])
              [wrap_envelope Sample.lead; wrap_envelope (VInt 2)]
              [Sample.lead; VInt 2] eq_refl eq_refl)
    as [Hreturned Hequal]; [repeat constructor|].
  split; [exact Hreturned | exact (Hequal eq_refl)].
Defined.



Lemma error_mapping_witness :
  result (Sample.get_leads Sample.no_such_lead)
  = Raise (RequestError 404 (VList [bunchify Sample.invalid]) (VStr "a1b2")).
Proof.
  refine (proj1 (proj2 (proj2
            (error_mapping dumps BaseError (Sample.always Sample.no_such_lead)
               Sample.client "get" "/leads" VNone VNone [] _ Sample.no_such_lead
               eq_refl eq_refl Sample.api_errors _ eq_refl))) _ _ _);
    simpl; lia.
Defined.

(** A 404 whose JSON body is not of the shape the constructor of the
    error reads ends in the [KeyError] of that constructor, not in a
    request error. *)
Lemma error_mapping_counterexample :
  Response.status_code Sample.not_found = 404
  /\ Response.json Sample.not_found = Return Sample.errors
  /\ result (Sample.get_leads Sample.not_found) = Raise (KeyError "error").
Proof. repeat split. Qed.

Lemma rate_limit_error_witness :
  result (Sample.get_leads Sample.limited) = Raise RateLimitError.
Proof.
  refine (proj1 (rate_limit_error dumps BaseError (Sample.always Sample.limited) Sample.client
                   "get" "/leads" VNone VNone [] _ Sample.limited
                   eq_refl eq_refl eq_refl) Sample.errors eq_refl).
Defined.

(** A 429 whose body is not JSON ends in the generic error, not in a rate
    limit error. *)
Lemma rate_limit_error_counterexample :
  Response.status_code Sample.throttled = 429
  /\ result (Sample.get_leads Sample.throttled)
     = Raise (Exception ("Unknown HTTP error response. Json expected. "
                         ++ "HTTP response code=429. "
                         ++ "HTTP response body=Too Many Requests"))
  /\ result (Sample.get_leads Sample.throttled) <> Raise RateLimitError.
Proof. repeat split. discriminate. Qed.

Lemma unparseable_error_witness :
  result (Sample.get_leads Sample.unavailable)
  = Raise (Exception ("Unknown HTTP error response. Json expected. "
                      ++ "HTTP response code=503. "
                      ++ "HTTP response body=Service Unavailable")).
Proof.
  refine (unparseable_error dumps BaseError (Sample.always Sample.unavailable) Sample.client
            "get" "/leads" VNone VNone [] _ Sample.unavailable
            eq_refl eq_refl ValueError _ eq_refl).
  simpl; lia.
Defined.

Lemma request_outcome_witness :
  result (Sample.get_leads Sample.found)
  = Return (200, Sample.json_headers, Decoded (bunchify Sample.lead)).
Proof.
  refine (proj1 (proj1 (proj1 (request_outcome dumps BaseError
                                 (Sample.always Sample.found) Sample.client
                                 "get" "/leads" VNone VNone [] _ Sample.found
                                 eq_refl eq_refl) _)
                   "application/json; charset=utf-8" eq_refl eq_refl)
            (wrap_envelope Sample.lead) (bunchify Sample.lead) eq_refl eq_refl).
  simpl; lia.
Defined.

(** A 200 response that says it is JSON and holds [{}] returns no tuple:
    the call raises [KeyError]. *)
Lemma request_outcome_counterexample :
  Response.status_code Sample.bare = 200
  /\ result (Sample.get_leads Sample.bare) = Raise (KeyError "data")
  /\ (forall t, result (Sample.get_leads Sample.bare) <> Return t).
Proof. repeat split. discriminate. Qed.


(** * Further properties of the gateway *)

(** ** Substrings *)

Lemma prefix_append (needle hay : string) :
  String.prefix needle hay = true <-> exists post, hay = needle ++ post.
Proof.
  revert hay. induction needle as [|c needle IH]; intros hay.
  - split; [intros _; now exists hay | now destruct hay].
  - destruct hay as [|c' hay]; simpl;
      [split; [discriminate | intros [post Hpost]; discriminate]|].
    destruct (Ascii.ascii_dec c c') as [<- | Hneq].
    + rewrite IH. split; intros [post Hpost]; exists post; congruence.
    + split; [discriminate | intros [post Hpost]; congruence].
Qed.

Lemma str_contains_unfold (needle hay : string) :
  str_contains needle hay
  = String.prefix needle hay
    || match hay with
       | EmptyString => false
       | String _ rest => str_contains needle rest
       end.
Proof. destruct hay; reflexivity. Qed.

(** [needle in hay] holds exactly when [hay] is [needle] between two
    strings. *)
Lemma str_contains_spec (needle hay : string) :
  str_contains needle hay = true
  <-> exists pre post, hay = pre ++ needle ++ post.
Proof.
  split.
  - induction hay as [|c rest IH]; rewrite str_contains_unfold; intros Hin;
      apply orb_prop in Hin as [Hpre | Hrest]; try discriminate.
    + apply prefix_append in Hpre as [post ->]. now exists "", post.
    + apply prefix_append in Hpre as [post Hpost]. exists "", post. exact Hpost.
    + destruct (IH Hrest) as (pre & post & ->). now exists (String c pre), post.
  - intros (pre & post & ->). induction pre as [|c pre IH];
      rewrite str_contains_unfold.
    + apply orb_true_intro. left. apply prefix_append. now exists post.
    + apply orb_true_intro. right. exact IH.
Qed.

(** ** The verbs *)

Section Verbs.

Variable json_dumps : value -> string.
Variable new_error : error_class -> Z -> value -> outcome exn.
Variable transport : Request.t -> outcome Response.t.
Variables (self : HttpClient) (url : string).
Variable kwargs : list (string * value).

Lemma call_request_rejected (method name : string) (v : value) :
  rebinds name kwargs = true ->
  call_request json_dumps new_error transport self method url name v kwargs []
  = (Raise TypeError, []).
Proof. unfold call_request. now intros ->. Qed.

Lemma call_request_sends (method name : string) (v : value) :
  rebinds name kwargs = false ->
  sends json_dumps
        (call_request json_dumps new_error transport self method url name v kwargs)
        method
        (keyword ((name, v) :: kwargs) "params")
        (keyword ((name, v) :: kwargs) "body").
Proof.
  intros Hfree. unfold sends, call_request. rewrite Hfree.
  eexists. split; [apply request_sent|]. simpl.
  repeat split; destruct (keyword ((name, v) :: kwargs) "body"); reflexivity.
Qed.

(** X1: [get] and [delete] hand their keywords on to [request].  One
    request goes out under the verb's method with the given query
    parameters; it has a payload and a Content-Type exactly when the
    caller gives a [body] keyword that is not [None].  A keyword named
    [params], [self], [method] or [url] is a [TypeError] of the call, and
    nothing is sent. *)
Theorem get_delete_requests (params : value) :
  (rebinds "params" kwargs = true ->
   (result (get json_dumps new_error transport self url params kwargs)
    = Raise TypeError
    /\ sent (get json_dumps new_error transport self url params kwargs) = [])
   /\ (result (delete json_dumps new_error transport self url params kwargs)
       = Raise TypeError
       /\ sent (delete json_dumps new_error transport self url params kwargs)
          = []))
  /\ (rebinds "params" kwargs = false ->
      sends json_dumps (get json_dumps new_error transport self url params kwargs)
            "get" params (keyword kwargs "body")
      /\ sends json_dumps
               (delete json_dumps new_error transport self url params kwargs)
               "delete" params (keyword kwargs "body")).
Proof.
  unfold get, delete, result, sent. split; intros Hkw.
  - now rewrite !call_request_rejected.
  - split; apply (call_request_sends _ "params" params Hkw).
Qed.

(** X2: [post] and [put] hand their keywords on to [request].  One
    request goes out under the verb's method, with the body in the
    envelope and a Content-Type when the body is not [None], and with no
    payload when it is; it has query parameters exactly when the caller
    gives a [params] keyword.  A keyword named [body], [self], [method]
    or [url] is a [TypeError] of the call, and nothing is sent. *)
Theorem post_put_requests (body : value) :
  (rebinds "body" kwargs = true ->
   (result (post json_dumps new_error transport self url body kwargs)
    = Raise TypeError
    /\ sent (post json_dumps new_error transport self url body kwargs) = [])
   /\ (result (put json_dumps new_error transport self url body kwargs)
       = Raise TypeError
       /\ sent (put json_dumps new_error transport self url body kwargs) = []))
  /\ (rebinds "body" kwargs = false ->
      sends json_dumps (post json_dumps new_error transport self url body kwargs)
            "post" (keyword kwargs "params") body
      /\ sends json_dumps
               (put json_dumps new_error transport self url body kwargs)
               "put" (keyword kwargs "params") body).
Proof.
  unfold post, put, result, sent. split; intros Hkw.
  - now rewrite !call_request_rejected.
  - split; apply (call_request_sends _ "body" body Hkw).
Qed.

End Verbs.

(** ** The envelope, outside of its convention *)

Lemma comprehension_inv {A B C : Type} (g : A -> outcome B) (h : B -> C)
    (xs : list A) (ys : list C) :
  comprehension (fun x => d <- g x ;; Return (h d))%py xs = Return ys ->
  exists ds, Forall2 (fun x d => g x = Return d) xs ds /\ ys = map h ds.
Proof.
  revert ys. induction xs as [|x rest IH]; simpl; intros ys Hrun.
  - injection Hrun as <-. exists []. split; constructor.
  - destruct (g x) as [d|] eqn:Hx; simpl in Hrun; [|discriminate].
    destruct (comprehension _ rest) as [tail|] eqn:Hrest; simpl in Hrun;
      [|discriminate].
    injection Hrun as <-. destruct (IH tail eq_refl) as (ds & Hds & ->).
    exists (d :: ds). split; [now constructor | reflexivity].
Qed.

Lemma unwrap_envelope_inv (body r : value) :
  unwrap_envelope body = Return r ->
  exists bunch kvs,
    body = VDict bunch kvs
    /\ ((exists d,
            dict_get kvs "items" = None
            /\ dict_get kvs "data" = Some d
            /\ r = bunchify d)
        \/ (exists items elements datas,
               dict_get kvs "items" = Some items
               /\ py_iter items = Return elements
               /\ Forall2 (fun item d => getitem item "data" = Return d)
                    elements datas
               /\ r = VList (map bunchify datas))).
Proof.
  unfold unwrap_envelope.
  destruct body as [| | | |s|xs|bunch kvs]; simpl; try discriminate.
  - now destruct (str_contains "items" s).
  - now destruct (existsb _ xs).
  - intros Hrun. exists bunch, kvs. split; [reflexivity|].
    unfold dict_has in Hrun.
    destruct (dict_get kvs "items") as [items|] eqn:Hitems; simpl in Hrun.
    + right. destruct (py_iter items) as [elements|] eqn:Hiter; simpl in Hrun;
        [|discriminate].
      destruct (comprehension _ elements) as [unwrapped|] eqn:Hall;
        simpl in Hrun; [|discriminate].
      injection Hrun as <-.
      destruct (comprehension_inv _ _ _ _ Hall) as (datas & Hdatas & ->).
      now exists items, elements, datas.
    + left. destruct (dict_get kvs "data") as [d|]; simpl in Hrun; [|discriminate].
      injection Hrun as <-. now exists d.
Qed.

Lemma all_bunch_bunchify (x : value) : all_bunch (bunchify x) = true.
Proof.
  induction x as [| | | | |xs IH|bunch kvs IH] using value_ind; try reflexivity.
  - simpl. rewrite forallb_forall. intros y Hy.
    apply in_map_iff in Hy as (x & <- & Hx).
    rewrite Forall_forall in IH. now apply IH.
  - simpl. rewrite forallb_forall. intros [k y] Hy.
    apply in_map_iff in Hy as ([k' x] & Heq & Hx). injection Heq as <- <-.
    rewrite Forall_forall in IH. exact (IH _ Hx).
Qed.

(** X6: [unwrap_envelope] returns only on an object that follows the
    convention: one without [items] and with [data], whose unwrapped
    [data] it returns, or one whose [items] can be iterated and hold a
    [data] in every element, which it returns in order. *)
Theorem unwrap_envelope_returns_only_envelopes (body r : value) :
  unwrap_envelope body = Return r ->
  exists bunch kvs,
    body = VDict bunch kvs
    /\ ((exists d,
            dict_get kvs "items" = None
            /\ dict_get kvs "data" = Some d
            /\ r = bunchify d)
        \/ (exists items elements datas,
               dict_get kvs "items" = Some items
               /\ py_iter items = Return elements
               /\ Forall2 (fun item d => getitem item "data" = Return d)
                    elements datas
               /\ r = VList (map bunchify datas))).
Proof. exact (unwrap_envelope_inv body r). Qed.

(** X7: on a body that is not an object (an array, a string, a number, a
    boolean or null) [unwrap_envelope] raises [TypeError]. *)
Theorem unwrap_envelope_not_object (body : value) :
  is_dict body = false -> unwrap_envelope body = Raise TypeError.
Proof.
  unfold unwrap_envelope.
  destruct body as [| | | |s|xs|bunch kvs]; simpl; try reflexivity.
  - now destruct (str_contains "items" s).
  - now destruct (existsb _ xs).
  - discriminate.
Qed.

(** X8: whatever [unwrap_envelope] returns gives attribute-style access
    at every depth: each dict in the result is a [Bunch]. *)
Theorem unwrap_envelope_all_bunch (body r : value) :
  unwrap_envelope body = Return r -> all_bunch r = true.
Proof.
  intros Hrun.
  destruct (unwrap_envelope_inv body r Hrun)
    as (bunch & kvs & _ & [(d & _ & _ & ->) | (items & els & datas & _ & _ & _ & ->)]).
  - apply all_bunch_bunchify.
  - change (all_bunch (bunchify (VList datas)) = true). apply all_bunch_bunchify.
Qed.

(** X10: when [items] is there and is not an array, the comprehension
    runs over its keys or characters: an empty object or string gives the
    empty list, anything else raises [TypeError]; [data] is not looked at. *)
Theorem unwrap_envelope_items_not_array (bunch : bool)
    (kvs : list (string * value)) (items : value) :
  dict_get kvs "items" = Some items ->
  is_list items = false ->
  unwrap_envelope (VDict bunch kvs)
  = if is_empty items then Return (VList []) else Raise TypeError.
Proof.
  intros Hitems Hlist. unfold unwrap_envelope. simpl. unfold dict_has.
  rewrite Hitems. simpl.
  destruct items as [| | | |s|xs|b entries]; try reflexivity.
  - now destruct s.
  - discriminate.
  - now destruct entries.
Qed.

(** ** Errors and their ranges *)

(** X4: [handle_error_response] never returns.  It raises the builtin
    [Exception], with the status code and the text, when the body is not
    JSON; a rate limit error at 429; the builtin [Exception] at a status
    code outside of 400 to 599; and at every other code it constructs the
    error of the status code (a resource error at 422, a request error
    at the other codes from 400 to 499, a server error from 500 to 599)
    from the status code and the parsed body, and ends in that error or
    in what its construction raises. *)
Theorem handle_error_response_kinds
    (new_error : error_class -> Z -> value -> outcome exn) (resp : Response.t) :
  exists e,
    handle_error_response new_error resp = Raise e
    /\ ((exists cause,
            Response.json resp = Raise cause
            /\ e = Exception
                     ("Unknown HTTP error response. Json expected. "
                      ++ "HTTP response code="
                      ++ str_of_int (Response.status_code resp) ++ ". "
                      ++ "HTTP response body=" ++ Response.text resp))
        \/ (exists errors,
               Response.json resp = Return errors
               /\ ((Response.status_code resp = 429 /\ e = RateLimitError)
                   \/ (~ (400 <= Response.status_code resp < 600)
                       /\ e = Exception "Unknown HTTP error response")
                   \/ (exists cls,
                          ((cls = class_ResourceError
                            /\ Response.status_code resp = 422)
                           \/ (cls = class_RequestError
                               /\ 400 <= Response.status_code resp < 500
                               /\ Response.status_code resp <> 422
                               /\ Response.status_code resp <> 429)
                           \/ (cls = class_ServerError
                               /\ 500 <= Response.status_code resp < 600))
                          /\ (new_error cls (Response.status_code resp) errors
                              = Return e
                              \/ new_error cls (Response.status_code resp) errors
                                 = Raise e))))).
Proof.
  unfold handle_error_response, raise_new, bind.
  destruct (Response.json resp) as [errors|cause].
  - set (status := Response.status_code resp). cbv zeta.
    assert (forall cls,
               exists e,
                 match new_error cls status errors with
                 | Return e' => Raise e'
                 | Raise e' => Raise e'
                 end = @Raise unit e
                 /\ (new_error cls status errors = Return e
                     \/ new_error cls status errors = Raise e)) as Hnew.
    { intros cls. destruct (new_error cls status errors) as [e|e];
        exists e; auto. }
    destruct (status =? 422) eqn:H422.
    { destruct (Hnew class_ResourceError) as (e & -> & Hmade).
      exists e. split; [reflexivity|]. right. exists errors.
      split; [reflexivity|]. right. right. exists class_ResourceError.
      split; [left; split; [reflexivity | lia] | exact Hmade]. }
    destruct (status =? 429) eqn:H429.
    { eexists. split; [reflexivity|]. right. exists errors.
      split; [reflexivity|]. left. split; [lia | reflexivity]. }
    destruct ((400 <=? status) && (status <? 500)) eqn:H4xx.
    { destruct (Hnew class_RequestError) as (e & -> & Hmade).
      exists e. split; [reflexivity|]. right. exists errors.
      split; [reflexivity|]. right. right. exists class_RequestError.
      split; [right; left; repeat split; lia | exact Hmade]. }
    destruct ((500 <=? status) && (status <? 600)) eqn:H5xx.
    { destruct (Hnew class_ServerError) as (e & -> & Hmade).
      exists e. split; [reflexivity|]. right. exists errors.
      split; [reflexivity|]. right. right. exists class_ServerError.
      split; [right; right; repeat split; lia | exact Hmade]. }
    eexists. split; [reflexivity|]. right. exists errors.
    split; [reflexivity|]. right. left. split; [lia | reflexivity].
  - eexists. split; [reflexivity|]. left. now exists cause.
Qed.

Section Exchange.

Variable json_dumps : value -> string.
Variable new_error : error_class -> Z -> value -> outcome exn.
Variable transport : Request.t -> outcome Response.t.
Variables (self : HttpClient) (method url : string) (params body : value).
Variable kwargs : list (string * value).
Variable req : Request.t.
Hypothesis Hsent :
  sent (request json_dumps new_error transport self method url params body kwargs) = [req].

Local Abbreviation call :=
  (request json_dumps new_error transport self method url params body kwargs).

(** X3: a failure of the transport is the failure of the call: [request]
    catches nothing and raises none of its own errors in its place. *)
Theorem transport_failure_propagates (e : exn) :
  transport req = Raise e -> result call = Raise e.
Proof. intros Hdown. exact (request_transport_failure _ _ _ _ _ _ _ _ _ req e Hsent Hdown). Qed.

Variable resp : Response.t.
Hypothesis Hresp : transport req = Return resp.

Local Abbreviation code := (Response.status_code resp).

(** X5: outside of [200, 300) the call raises what
    [handle_error_response] raises, whatever the Content-Type header and
    the content of the response: the decoding of the success path is not
    run. *)
Theorem request_fails_as_handler :
  ~ (200 <= code < 300) ->
  exists e,
    result call = Raise e
    /\ handle_error_response new_error resp = Raise e.
Proof.
  intros Hcode. destruct (handle_error_response_raises new_error resp) as [e He].
  exists e. split; trivial.
  exact (request_failure _ _ _ _ _ _ _ _ _ req resp Hsent Hresp e Hcode He).
Qed.

(** X9: in [200, 300), when the response says it is JSON and
    [resp.json()] raises, the call raises that very exception: only
    [handle_error_response] guards the decoding. *)
Theorem success_decode_failure_propagates (content_type : string) (e : exn) :
  200 <= code < 300 ->
  header_get (Response.headers resp) "Content-Type" = Some content_type ->
  str_contains "json" content_type = true ->
  Response.json resp = Raise e ->
  result call = Raise e.
Proof.
  intros Hcode Hct Hjson Hraise.
  rewrite (request_decoded _ _ _ _ _ _ _ _ _ req resp Hsent Hresp
             content_type Hcode Hct Hjson).
  now rewrite Hraise.
Qed.

(** X11: when the server answers in [200, 300) with the JSON object
    [{"data": x}], the call returns [x], its dicts turned into [Bunch]:
    a value equal to [x] when [x] holds no NaN. *)
Theorem request_returns_enveloped_resource (content_type : string) (x : value) :
  200 <= code < 300 ->
  header_get (Response.headers resp) "Content-Type" = Some content_type ->
  str_contains "json" content_type = true ->
  Response.json resp = Return (wrap_envelope x) ->
  result call = Return (code, Response.headers resp, Decoded (bunchify x))
  /\ (well_formed x = true -> nan_free x = true ->
      py_eq (bunchify x) x = true).
Proof.
  intros Hcode Hct Hjson Hparsed. split; [|now apply py_eq_bunchify].
  rewrite (request_decoded _ _ _ _ _ _ _ _ _ req resp Hsent Hresp
             content_type Hcode Hct Hjson).
  now rewrite Hparsed.
Qed.

End Exchange.

(** ** Media types *)

Section MediaType.

Variable json_dumps : value -> string.
Variable new_error : error_class -> Z -> value -> outcome exn.
Variable transport : Request.t -> outcome Response.t.
Variables (self : HttpClient) (method url : string) (params body : value).
Variable kwargs : list (string * value).
Variables (req : Request.t) (resp : Response.t).
Hypothesis Hsent :
  sent (request json_dumps new_error transport self method url params body kwargs) = [req].
Hypothesis Hresp : transport req = Return resp.

(** X12: in [200, 300) the body is decoded for every Content-Type value
    that has [json] somewhere in it, in lower case, and for no other: any
    other value gives the content back as it came. *)
Theorem request_decodes_json_media_types (content_type : string) :
  200 <= Response.status_code resp < 300 ->
  header_get (Response.headers resp) "Content-Type" = Some content_type ->
  ((exists pre post, content_type = pre ++ "json" ++ post) ->
   result (request json_dumps new_error transport self method url params body kwargs)
   = (parsed <- Response.json resp ;;
      unwrapped <- unwrap_envelope parsed ;;
      Return (Response.status_code resp, Response.headers resp,
              Decoded unwrapped))%py)
  /\ (~ (exists pre post, content_type = pre ++ "json" ++ post) ->
      result (request json_dumps new_error transport self method url params body kwargs)
      = Return (Response.status_code resp, Response.headers resp,
                Content (Response.content resp))).
Proof.
  intros Hcode Hct. split; intros Hsub.
  - apply str_contains_spec in Hsub.
    exact (request_decoded _ _ _ _ _ _ _ _ _ req resp Hsent Hresp
             content_type Hcode Hct Hsub).
  - rewrite (request_result _ _ _ _ _ _ _ _ _ req resp Hsent Hresp).
    replace ((200 <=? Response.status_code resp)
             && (Response.status_code resp <? 300)) with true by lia.
    simpl. rewrite Hct.
    destruct (str_contains "json" content_type) eqn:Hin; [|reflexivity].
    apply str_contains_spec in Hin. contradiction.
Qed.

End MediaType.

(** ** The further properties at concrete exchanges *)

Lemma transport_failure_propagates_witness :
  result (get dumps BaseError Scenario.unreachable Sample.client "/leads" VNone [])
  = Raise ConnectionError.
Proof.
  exact (transport_failure_propagates dumps BaseError Scenario.unreachable Sample.client
           "get" "/leads" VNone VNone [] _ eq_refl ConnectionError eq_refl).
Defined.

Lemma request_fails_as_handler_witness :
  exists e,
    result (Sample.get_leads Scenario.gone) = Raise e
    /\ handle_error_response BaseError Scenario.gone = Raise e.
Proof.
  refine (request_fails_as_handler dumps BaseError (Sample.always Scenario.gone) Sample.client
            "get" "/leads" VNone VNone [] _ eq_refl Scenario.gone eq_refl _).
  simpl; lia.
Defined.

Lemma unwrap_envelope_returns_only_envelopes_witness :
  exists bunch kvs,
    wrap_envelope Sample.lead = VDict bunch kvs
    /\ ((exists d,
            dict_get kvs "items" = None
            /\ dict_get kvs "data" = Some d
            /\ bunchify Sample.lead = bunchify d)
        \/ (exists items elements datas,
               dict_get kvs "items" = Some items
               /\ py_iter items = Return elements
               /\ Forall2 (fun item d => getitem item "data" = Return d)
                    elements datas
               /\ bunchify Sample.lead = VList (map bunchify datas))).
Proof.
  exact (unwrap_envelope_returns_only_envelopes
           (wrap_envelope Sample.lead) (bunchify Sample.lead) eq_refl).
Defined.

Lemma unwrap_envelope_not_object_witness :
  unwrap_envelope (VList [Sample.lead]) = Raise TypeError.
Proof. exact (unwrap_envelope_not_object (VList [Sample.lead]) eq_refl). Defined.

Lemma unwrap_envelope_all_bunch_witness :
  all_bunch (VList [bunchify Sample.lead; VInt 2]) = true.
Proof.
  exact (unwrap_envelope_all_bunch Sample.collection
           (VList [bunchify Sample.lead; VInt 2]) eq_refl).
Defined.

Lemma unwrap_envelope_items_not_array_witness :
  unwrap_envelope (VDict false [("items", VNone); ("data", Sample.lead)])
  = Raise TypeError.
Proof.
  exact (unwrap_envelope_items_not_array false
           [("items", VNone); ("data", Sample.lead)] VNone eq_refl eq_refl).
Defined.

Lemma success_decode_failure_propagates_witness :
  result (Sample.get_leads Scenario.garbled) = Raise ValueError.
Proof.
  refine (success_decode_failure_propagates dumps BaseError (Sample.always Scenario.garbled)
            Sample.client "get" "/leads" VNone VNone [] _ eq_refl
            Scenario.garbled eq_refl "application/json; charset=utf-8" ValueError
            _ eq_refl eq_refl eq_refl).
  simpl; lia.
Defined.

Lemma request_returns_enveloped_resource_witness :
  result (Sample.get_leads Sample.found)
  = Return (200, Sample.json_headers, Decoded (bunchify Sample.lead))
  /\ py_eq (bunchify Sample.lead) Sample.lead = true.
Proof.
  destruct (request_returns_enveloped_resource dumps BaseError
              (Sample.always Sample.found) Sample.client
              "get" "/leads" VNone VNone [] _ eq_refl
              Sample.found eq_refl "application/json; charset=utf-8" Sample.lead)
    as [Hreturned Hequal]; try reflexivity; [simpl; lia|].
  split; [exact Hreturned | exact (Hequal eq_refl eq_refl)].
Defined.

Lemma request_decodes_json_media_types_witness :
  result (Sample.get_leads Sample.found)
  = Return (200, Sample.json_headers, Decoded (bunchify Sample.lead)).
Proof.
  refine (proj1 (request_decodes_json_media_types dumps BaseError (Sample.always Sample.found)
                   Sample.client "get" "/leads" VNone VNone [] _ Sample.found
                   eq_refl eq_refl "application/json; charset=utf-8" _ eq_refl) _).
  - simpl; lia.
  - exists "application/", "; charset=utf-8". reflexivity.
Defined.
